(** * Mundi Synthetic: dark-mode toggle (src/js/main.js)

    A shallow embedding of the script's immediately-invoked function: the
    browser objects it touches (the document, the toggle button, the root
    element's class list, localStorage, window.matchMedia, the console) are
    an explicit state, and each JavaScript statement is a step of a small
    state-and-exception monad over it. *)

From stdpp Require Import gmap strings.

Open Scope string_scope.

(** ** JavaScript values reaching [apply]

    [apply] receives [stored === '1'] and [!isOn], which are booleans, and
    [prefersDark], which is [window.matchMedia && ...matches]: the boolean
    [matches], or [undefined] when [window.matchMedia] is undefined. *)

Inductive jsval : Type :=
| JUndefined
| JBool (b : bool).

(** [Boolean(v)], also the test of [v ? a : b]. *)
Definition truthy (v : jsval) : bool :=
  match v with
  | JUndefined => false
  | JBool b => b
  end.

(** [String(b)] for a boolean [b]. *)
Definition String_of_bool (b : bool) : string :=
  if b then "true" else "false".

(** The optional [force] argument of [DOMTokenList.toggle]: an [undefined]
    argument counts as not given. *)
Definition force_of (v : jsval) : option bool :=
  match v with
  | JUndefined => None
  | JBool b => Some b
  end.

(** ** Browser state *)

(** The closures the script registers as listeners. The only one is the
    click handler, which captures [btn]. *)
Inductive Handler : Type :=
| ToggleTheme (btn : string).

Record Element : Type := mkElement {
  attributes : gmap string string;
  textContent : string;
  listeners : list (string * Handler)
}.

(** Elements of the document are keyed by their [id]; a reference to an
    element is its key, so every holder of a reference sees the same
    element. *)
Record Browser : Type := mkBrowser {
  elements : gmap string Element;
  classList : gset string;            (* document.documentElement.classList *)
  localStorage : gmap string string;
  matchMedia : option (string → bool);  (* window.matchMedia, query ↦ matches *)
  console : list string               (* console.warn output *)
}.

(** ** Completions and the monad of statements

    A statement either completes normally or throws; either way it leaves a
    browser state behind. *)

Inductive Completion (A : Type) : Type :=
| Returned (a : A) (s : Browser)
| Threw (err : string) (s : Browser).
Arguments Returned {A} a s.
Arguments Threw {A} err s.

Definition JS (A : Type) : Type := Browser → Completion A.

Definition ret {A} (a : A) : JS A := λ s, Returned a s.

Definition bind {A B} (m : JS A) (k : A → JS B) : JS B :=
  λ s, match m s with
       | Returned a s' => k a s'
       | Threw err s' => Threw err s'
       end.

Notation "x <- m ;; k" := (bind m (λ x, k))
  (at level 100, m at next level, right associativity).
Notation "m ;; k" := (bind m (λ _, k))
  (at level 100, right associativity).

(** The state a completion leaves behind, and whether it was normal. *)
Definition final {A} (c : Completion A) : Browser :=
  match c with
  | Returned _ s => s
  | Threw _ s => s
  end.

Definition completes {A} (c : Completion A) : bool :=
  match c with
  | Returned _ _ => true
  | Threw _ _ => false
  end.

Definition result {A} (c : Completion A) : option A :=
  match c with
  | Returned a _ => Some a
  | Threw _ _ => None
  end.

(** ** State updates *)

Definition set_elements (m : gmap string Element) (s : Browser) : Browser :=
  mkBrowser m (classList s) (localStorage s) (matchMedia s) (console s).

Definition set_classList (c : gset string) (s : Browser) : Browser :=
  mkBrowser (elements s) c (localStorage s) (matchMedia s) (console s).

Definition set_localStorage (m : gmap string string) (s : Browser) : Browser :=
  mkBrowser (elements s) (classList s) m (matchMedia s) (console s).

Definition set_matchMedia (mm : option (string → bool)) (s : Browser) : Browser :=
  mkBrowser (elements s) (classList s) (localStorage s) mm (console s).

Definition set_console (c : list string) (s : Browser) : Browser :=
  mkBrowser (elements s) (classList s) (localStorage s) (matchMedia s) c.

(** ** The browser API the script calls *)

Definition TypeError : string := "TypeError".

(** [document.getElementById(id)]: the element, or [null]. *)
Definition getElementById (id : string) : JS (option string) :=
  λ s, Returned (match elements s !! id with Some _ => Some id | None => None end) s.

(** [console.warn(msg)]. *)
Definition console_warn (msg : string) : JS unit :=
  λ s, Returned () (set_console (console s ++ [msg])%list s).

(** [DOMTokenList.toggle(token, force)]: a present token is removed unless
    [force] is true, an absent one is added unless [force] is false. The
    result is the new token set. *)
Definition DOMTokenList_toggle (token : string) (force : option bool)
    (c : gset string) : gset string :=
  if bool_decide (token ∈ c)
  then match force with
       | Some true => c
       | _ => c ∖ {[token]}
       end
  else match force with
       | Some false => c
       | _ => c ∪ {[token]}
       end.

(** [document.documentElement.classList.toggle(token, force)]; returns
    whether the token is present afterwards. *)
Definition classList_toggle (token : string) (force : option bool) : JS bool :=
  λ s, let c := DOMTokenList_toggle token force (classList s) in
       Returned (bool_decide (token ∈ c)) (set_classList c s).

(** A method call on an element reference. A reference that denotes no
    element behaves as [null]: the call throws a TypeError. *)
Definition with_element {A} (el : string) (k : Element → JS A) : JS A :=
  λ s, match elements s !! el with
       | Some e => k e s
       | None => Threw TypeError s
       end.

(** [el.getAttribute(name)]: the value, or [null]. *)
Definition getAttribute (el name : string) : JS (option string) :=
  with_element el (λ e, ret (attributes e !! name)).

(** [el.setAttribute(name, value)]. *)
Definition setAttribute (el name value : string) : JS unit :=
  with_element el (λ e s, Returned ()
    (set_elements
       (<[el := mkElement (<[name := value]> (attributes e)) (textContent e) (listeners e)]>
          (elements s)) s)).

(** [el.textContent = value]. Only the element's own text is kept here:
    the children the assignment discards are not part of the state. *)
Definition set_textContent (el value : string) : JS unit :=
  with_element el (λ e s, Returned ()
    (set_elements
       (<[el := mkElement (attributes e) value (listeners e)]> (elements s)) s)).

(** [el.addEventListener(type, handler)]. Every run of the script makes a
    new closure, so the listener is never a duplicate of an earlier one. *)
Definition addEventListener (el type : string) (h : Handler) : JS unit :=
  with_element el (λ e s, Returned ()
    (set_elements
       (<[el := mkElement (attributes e) (textContent e) (listeners e ++ [(type, h)])%list]>
          (elements s)) s)).

(** [localStorage.getItem(key)]: the value, or [null]. The store is taken
    to be available, so neither this call nor [setItem] throws. *)
Definition localStorage_getItem (key : string) : JS (option string) :=
  λ s, Returned (localStorage s !! key) s.

(** [localStorage.setItem(key, value)]. *)
Definition localStorage_setItem (key value : string) : JS unit :=
  λ s, Returned () (set_localStorage (<[key := value]> (localStorage s)) s).

(** [o === lit] for a value [o] that is a string or [null]. *)
Definition strict_eq (o : option string) (lit : string) : bool :=
  match o with
  | Some v => String.eqb v lit
  | None => false
  end.

(** ** The script *)

Definition sun : string := "☀️".
Definition moon : string := "🌙".

(** [const apply = (enabled) => { ... }], closed over [btn]. *)
Definition apply (btn : string) (enabled : jsval) : JS unit :=
  classList_toggle "dark-mode" (force_of enabled) ;;
  setAttribute btn "aria-pressed" (String_of_bool (truthy enabled)) ;;
  localStorage_setItem "darkMode" (if truthy enabled then "1" else "0") ;;
  set_textContent btn (if truthy enabled then sun else moon).

(** [window.matchMedia && window.matchMedia('(prefers-color-scheme: dark)').matches]. *)
Definition prefersDark : JS jsval :=
  λ s, Returned (match matchMedia s with
                 | Some query => JBool (query "(prefers-color-scheme: dark)")
                 | None => JUndefined
                 end) s.

(** The click listener [() => { const isOn = ...; apply(!isOn); }]. *)
Definition handle (h : Handler) : JS unit :=
  match h with
  | ToggleTheme btn =>
      pressed <- getAttribute btn "aria-pressed" ;;
      let isOn := strict_eq pressed "true" in
      apply btn (JBool (negb isOn))
  end.

Definition warning : string :=
  "[Mundi Synthetic] Botón del modo oscuro no encontrado aún.".

(** The body of the immediately-invoked function. *)
Definition main : JS unit :=
  btn <- getElementById "dark-mode-toggle" ;;
  match btn with
  | None => console_warn warning
  | Some btn =>
      stored <- localStorage_getItem "darkMode" ;;
      match stored with
      | Some v => apply btn (JBool (String.eqb v "1"))
      | None => dark <- prefersDark ;; apply btn dark
      end ;;
      addEventListener btn "click" (ToggleTheme btn)
  end.

(** Dispatch of an event of type [type] at element [el]: its listeners for
    that type run in registration order. An exception in a listener is
    reported and does not stop the dispatch. *)
Fixpoint invoke (hs : list Handler) (s : Browser) : Browser :=
  match hs with
  | [] => s
  | h :: hs => invoke hs (final (handle h s))
  end.

Definition listeners_for (type : string) (e : Element) : list Handler :=
  (filter (λ l, l.1 = type) (listeners e)).*2.

Definition dispatchEvent (el type : string) : JS unit :=
  with_element el (λ e s, Returned () (invoke (listeners_for type e) s)).

Definition click (el : string) : JS unit := dispatchEvent el "click".

(** The user activating the button [n] times in a row. *)
Fixpoint clicks (n : nat) (el : string) : JS unit :=
  match n with
  | O => ret ()
  | S n => click el ;; clicks n el
  end.

(** ** What an observer of the page sees *)

(** The theme marker: the class [dark-mode] on the root element. *)
Definition dark_mode_class (s : Browser) : bool :=
  bool_decide ("dark-mode" ∈ classList s).

(** The button's [aria-pressed] attribute, if the button and it exist. *)
Definition aria_pressed (btn : string) (s : Browser) : option string :=
  e ← elements s !! btn; attributes e !! "aria-pressed".

(** The button's label. *)
Definition label (btn : string) (s : Browser) : option string :=
  textContent <$> elements s !! btn.

(** The persisted key. *)
Definition darkMode_key (s : Browser) : option string :=
  localStorage s !! "darkMode".

(** The click listeners bound to the button. *)
Definition click_listeners (btn : string) (s : Browser) : list Handler :=
  default [] (listeners_for "click" <$> elements s !! btn).

(** The state [apply] leaves when the button is [e]. *)
Definition applied (btn : string) (enabled : jsval) (e : Element) (s : Browser) : Browser :=
  mkBrowser
    (<[btn := mkElement
                (<["aria-pressed" := String_of_bool (truthy enabled)]> (attributes e))
                (if truthy enabled then sun else moon)
                (listeners e)]> (elements s))
    (DOMTokenList_toggle "dark-mode" (force_of enabled) (classList s))
    (<["darkMode" := if truthy enabled then "1" else "0"]> (localStorage s))
    (matchMedia s)
    (console s).

(** Initialization once the button is found and the theme is resolved to
    [enabled]: [apply(enabled)], then the click listener is bound. *)
Definition init_with (enabled : jsval) : JS unit :=
  apply "dark-mode-toggle" enabled ;;
  addEventListener "dark-mode-toggle" "click" (ToggleTheme "dark-mode-toggle").

(** The state [init_with] leaves when the button is [e]. *)
Definition initialized (enabled : jsval) (e : Element) (s : Browser) : Browser :=
  mkBrowser
    (<["dark-mode-toggle" := mkElement
         (<["aria-pressed" := String_of_bool (truthy enabled)]> (attributes e))
         (if truthy enabled then sun else moon)
         (listeners e ++ [("click", ToggleTheme "dark-mode-toggle")])%list]> (elements s))
    (DOMTokenList_toggle "dark-mode" (force_of enabled) (classList s))
    (<["darkMode" := if truthy enabled then "1" else "0"]> (localStorage s))
    (matchMedia s)
    (console s).

(** ** Sample pages *)

(** The button as the header markup delivers it. *)
Definition bare_button : Element := mkElement ∅ "" [].

Definition system_dark : string → bool :=
  λ query, String.eqb query "(prefers-color-scheme: dark)".

Definition system_light : string → bool := λ _, false.

(** A button whose [aria-pressed] another script has set to ["mixed"]. *)
Definition mixed_button : Element :=
  mkElement {["aria-pressed" := "mixed"]} "" [("click", ToggleTheme "dark-mode-toggle")].

(** A page whose header is loaded, with the given button, stored token and
    [window.matchMedia]. *)
Definition page_with_button (button : Element) (stored : option string)
    (mm : option (string → bool)) : Browser :=
  mkBrowser {["dark-mode-toggle" := button]} ∅
    (match stored with Some v => {["darkMode" := v]} | None => ∅ end) mm [].

Definition page_with (stored : option string) (mm : option (string → bool)) : Browser :=
  page_with_button bare_button stored mm.

(** A page whose header has not arrived yet. *)
Definition page_without_header (stored : option string) : Browser :=
  mkBrowser ∅ ∅ (match stored with Some v => {["darkMode" := v]} | None => ∅ end)
    (Some system_dark) [].

(** * Properties *)

Section Apply.

Variable btn : string.

Lemma toggle_forced (token : string) (b : bool) (c : gset string) :
  token ∈ DOMTokenList_toggle token (Some b) c ↔ b = true.
Proof.
  unfold DOMTokenList_toggle.
  case_bool_decide as Hin; destruct b; split; intros H; try done.
  - apply elem_of_difference in H as [_ H]. exfalso. by apply H, elem_of_singleton.
  - apply elem_of_union; right. by apply elem_of_singleton.
Qed.

Lemma toggle_forced_twice (token : string) (b : bool) (c : gset string) :
  DOMTokenList_toggle token (Some b) (DOMTokenList_toggle token (Some b) c)
  = DOMTokenList_toggle token (Some b) c.
Proof.
  pose proof (toggle_forced token b c) as Hin.
  unfold DOMTokenList_toggle at 1.
  case_bool_decide; destruct b; try reflexivity.
  - apply Hin in H. discriminate.
  - exfalso. apply H, Hin. reflexivity.
Qed.

Lemma apply_found (enabled : jsval) (e : Element) (s : Browser) :
  elements s !! btn = Some e →
  apply btn enabled s = Returned () (applied btn enabled e s).
Proof.
  intros He.
  unfold apply, bind, classList_toggle, setAttribute, localStorage_setItem,
    set_textContent, with_element; simpl.
  rewrite He; simpl.
  rewrite lookup_insert_eq; simpl.
  rewrite insert_insert_eq.
  reflexivity.
Qed.

Lemma apply_missing (enabled : jsval) (s : Browser) :
  elements s !! btn = None →
  apply btn enabled s
  = Threw TypeError
      (set_classList (DOMTokenList_toggle "dark-mode" (force_of enabled) (classList s)) s).
Proof.
  intros He.
  unfold apply, bind, classList_toggle, setAttribute, with_element; simpl.
  rewrite He. reflexivity.
Qed.

(** C1. After [apply] with a boolean argument [b], on a page that has the
    button, the call returns normally and the four facets agree with [b]:
    the root element carries [dark-mode] iff [b], [aria-pressed] is
    ["true"] iff [b] (and ["false"] otherwise), the label is the glyph of
    the enabled branch (the sun) iff [b] (and the moon otherwise), and the
    persisted key is ["1"] iff [b] (and ["0"] otherwise). *)
Theorem apply_consistent (b : bool) (s : Browser) :
  is_Some (elements s !! btn) →
  ∃ s', apply btn (JBool b) s = Returned () s'
    ∧ ("dark-mode" ∈ classList s' ↔ b = true)
    ∧ aria_pressed btn s' = Some (String_of_bool b)
    ∧ (aria_pressed btn s' = Some "true" ↔ b = true)
    ∧ label btn s' = Some (if b then sun else moon)
    ∧ (label btn s' = Some sun ↔ b = true)
    ∧ darkMode_key s' = Some (if b then "1" else "0")
    ∧ (darkMode_key s' = Some "1" ↔ b = true).
Proof.
  intros [e He].
  exists (applied btn (JBool b) e s).
  split; [by apply apply_found|].
  unfold aria_pressed, label, darkMode_key, applied; simpl.
  rewrite !lookup_insert_eq; simpl. rewrite !lookup_insert_eq.
  split; [apply toggle_forced|].
  unfold sun, moon.
  destruct b; simpl; repeat split; intros; congruence.
Qed.

(** C7. [apply] with a boolean argument is idempotent: running it twice
    in succession leaves exactly the browser state (marker, attribute,
    label, persisted key and everything else) that running it once
    leaves. *)
Theorem apply_idempotent (b : bool) (s : Browser) :
  (apply btn (JBool b) ;; apply btn (JBool b)) s = apply btn (JBool b) s.
Proof.
  unfold bind.
  destruct (elements s !! btn) as [e|] eqn:He.
  - rewrite (apply_found _ e s He).
    erewrite apply_found by (simpl; apply lookup_insert_eq).
    unfold applied; simpl.
    rewrite !insert_insert_eq, toggle_forced_twice.
    reflexivity.
  - rewrite (apply_missing _ s He). reflexivity.
Qed.

(** C8. [apply(true)] followed by a read of the persisted key yields
    ["1"], [apply(false)] followed by a read yields ["0"], and after
    [apply] with any argument the key is present: it holds ["1"] for a
    truthy argument and ["0"] otherwise. *)
Theorem apply_storage_roundtrip (s : Browser) :
  is_Some (elements s !! btn) →
  result ((apply btn (JBool true) ;; localStorage_getItem "darkMode") s) = Some (Some "1")
  ∧ result ((apply btn (JBool false) ;; localStorage_getItem "darkMode") s) = Some (Some "0")
  ∧ ∀ enabled : jsval,
      completes (apply btn enabled s) = true
      ∧ darkMode_key (final (apply btn enabled s))
        = Some (if truthy enabled then "1" else "0").
Proof.
  intros [e He].
  unfold bind, localStorage_getItem, darkMode_key.
  split; [|split; [|intros enabled; split]];
    rewrite (apply_found _ e s He); simpl;
    by rewrite ?lookup_insert_eq.
Qed.

End Apply.

(** With [undefined] for [enabled], as initialization passes when
    [window.matchMedia] is missing, [toggle] gets no [force] and flips the
    marker, while the other three facets are set as for [false]. *)
Lemma apply_undefined_flips (btn : string) (e : Element) (s : Browser) :
  elements s !! btn = Some e →
  dark_mode_class (final (apply btn JUndefined s)) = negb (dark_mode_class s)
  ∧ aria_pressed btn (final (apply btn JUndefined s)) = Some "false".
Proof.
  intros He. rewrite (apply_found _ _ e s He).
  unfold dark_mode_class, aria_pressed, applied, DOMTokenList_toggle; simpl.
  rewrite lookup_insert_eq; simpl. rewrite lookup_insert_eq.
  split; [|reflexivity].
  destruct (decide ("dark-mode" ∈ classList s)) as [Hin|Hin].
  - rewrite !(bool_decide_true _ Hin); simpl.
    apply bool_decide_false. intros H.
    apply elem_of_difference in H as [_ H]. by apply H, elem_of_singleton.
  - rewrite !(bool_decide_false _ Hin); simpl.
    apply bool_decide_true, elem_of_union; right. by apply elem_of_singleton.
Qed.

Section Init.

Lemma init_with_found (enabled : jsval) (e : Element) (s : Browser) :
  elements s !! "dark-mode-toggle" = Some e →
  init_with enabled s = Returned () (initialized enabled e s).
Proof.
  intros He. unfold init_with, bind.
  rewrite (apply_found _ _ e s He).
  unfold addEventListener, with_element, applied, set_elements; simpl.
  rewrite lookup_insert_eq; simpl.
  rewrite insert_insert_eq. reflexivity.
Qed.

Lemma main_stored (v : string) (s : Browser) :
  is_Some (elements s !! "dark-mode-toggle") →
  localStorage s !! "darkMode" = Some v →
  main s = init_with (JBool (String.eqb v "1")) s.
Proof.
  intros [e He] Hv.
  unfold main, bind, getElementById, localStorage_getItem.
  rewrite He, Hv. reflexivity.
Qed.

Lemma main_unset (s : Browser) :
  is_Some (elements s !! "dark-mode-toggle") →
  localStorage s !! "darkMode" = None →
  main s = init_with (match matchMedia s with
                      | Some query => JBool (query "(prefers-color-scheme: dark)")
                      | None => JUndefined
                      end) s.
Proof.
  intros [e He] Hv.
  unfold main, bind, getElementById, localStorage_getItem, prefersDark.
  rewrite He, Hv. reflexivity.
Qed.

Lemma main_missing (s : Browser) :
  elements s !! "dark-mode-toggle" = None →
  main s = Returned () (set_console (console s ++ [warning]) s).
Proof.
  intros He. unfold main, bind, getElementById. rewrite He. reflexivity.
Qed.

(** What an initialization that resolves the theme to a boolean shows. *)
Lemma init_with_bool_facets (b : bool) (s : Browser) :
  is_Some (elements s !! "dark-mode-toggle") →
  completes (init_with (JBool b) s) = true
  ∧ dark_mode_class (final (init_with (JBool b) s)) = b
  ∧ aria_pressed "dark-mode-toggle" (final (init_with (JBool b) s))
    = Some (String_of_bool b)
  ∧ label "dark-mode-toggle" (final (init_with (JBool b) s))
    = Some (if b then sun else moon)
  ∧ darkMode_key (final (init_with (JBool b) s)) = Some (if b then "1" else "0").
Proof.
  intros [e He]. rewrite (init_with_found _ e s He).
  unfold dark_mode_class, aria_pressed, label, darkMode_key, initialized; simpl.
  rewrite !lookup_insert_eq; simpl. rewrite !lookup_insert_eq.
  repeat split.
  destruct b.
  - apply bool_decide_true, toggle_forced. reflexivity.
  - apply bool_decide_false. intros H. by apply toggle_forced in H.
Qed.

(** The system signal does not reach an initialization whose theme is
    already resolved. *)
Lemma init_with_ignores_matchMedia (enabled : jsval) (mm : option (string → bool))
    (s : Browser) :
  final (init_with enabled (set_matchMedia mm s))
  = set_matchMedia mm (final (init_with enabled s)).
Proof.
  destruct (elements s !! "dark-mode-toggle") as [e|] eqn:He.
  - rewrite (init_with_found enabled e (set_matchMedia mm s)) by exact He.
    rewrite (init_with_found enabled e s He). reflexivity.
  - unfold init_with, bind.
    rewrite (apply_missing _ enabled (set_matchMedia mm s)) by exact He.
    rewrite (apply_missing _ enabled s He). reflexivity.
Qed.

(** C2. When the button is found and the persisted key holds ["1"],
    initialization calls [apply(true)] and binds the listener: it returns
    normally with the marker set, [aria-pressed] ["true"] and the key
    still ["1"]. The system signal plays no part: under any other
    [window.matchMedia] the run leaves the same state. *)
Theorem stored_one_wins (s : Browser) :
  is_Some (elements s !! "dark-mode-toggle") →
  localStorage s !! "darkMode" = Some "1" →
  main s = init_with (JBool true) s
  ∧ completes (main s) = true
  ∧ dark_mode_class (final (main s)) = true
  ∧ aria_pressed "dark-mode-toggle" (final (main s)) = Some "true"
  ∧ darkMode_key (final (main s)) = Some "1"
  ∧ ∀ mm, final (main (set_matchMedia mm s)) = set_matchMedia mm (final (main s)).
Proof.
  intros Hbtn Hv.
  pose proof (main_stored "1" s Hbtn Hv) as Hmain. simpl in Hmain.
  destruct (init_with_bool_facets true s Hbtn) as (Hc & Hm & Ha & _ & Hk).
  rewrite Hmain. repeat split; try assumption.
  intros mm.
  rewrite (main_stored "1" (set_matchMedia mm s)) by assumption.
  apply init_with_ignores_matchMedia.
Qed.

(** C3. When the button is found, the persisted key is absent and the
    system signal reports a dark preference, initialization calls
    [apply(true)]: it returns normally with the marker set and
    [aria-pressed] ["true"]. *)
Theorem system_dark_fallback (query : string → bool) (s : Browser) :
  is_Some (elements s !! "dark-mode-toggle") →
  localStorage s !! "darkMode" = None →
  matchMedia s = Some query →
  query "(prefers-color-scheme: dark)" = true →
  main s = init_with (JBool true) s
  ∧ completes (main s) = true
  ∧ dark_mode_class (final (main s)) = true
  ∧ aria_pressed "dark-mode-toggle" (final (main s)) = Some "true".
Proof.
  intros Hbtn Hv Hmm Hq.
  pose proof (main_unset s Hbtn Hv) as Hmain. rewrite Hmm, Hq in Hmain.
  destruct (init_with_bool_facets true s Hbtn) as (Hc & Hm & Ha & _).
  rewrite Hmain. repeat split; assumption.
Qed.

(** C4, as amended. When the button is found and the persisted key is
    absent, initialization resolves the theme from the system signal and
    writes it to storage through [apply]: afterwards the key holds ["1"]
    when the signal is truthy and ["0"] otherwise ([undefined], when
    [window.matchMedia] is missing, counts as not dark). No other key
    changes. *)
Theorem init_persists_resolved_theme (s : Browser) :
  is_Some (elements s !! "dark-mode-toggle") →
  darkMode_key s = None →
  ∃ dark : jsval,
    prefersDark s = Returned dark s
    ∧ main s = init_with dark s
    ∧ completes (main s) = true
    ∧ darkMode_key (final (main s)) = Some (if truthy dark then "1" else "0")
    ∧ ∀ key, key ≠ "darkMode" →
        localStorage (final (main s)) !! key = localStorage s !! key.
Proof.
  intros Hbtn Hv.
  eexists. split; [reflexivity|].
  split; [by apply main_unset|].
  rewrite (main_unset s Hbtn Hv).
  destruct Hbtn as [e He].
  rewrite (init_with_found _ e s He).
  unfold darkMode_key, initialized; simpl.
  rewrite lookup_insert_eq.
  repeat split.
  intros key Hkey. by rewrite lookup_insert_ne.
Qed.

(** C6. When no element has the button's id, initialization only logs the
    warning: it returns normally, and the elements (so every listener
    list), the root element's classes and localStorage are as before. *)
Theorem missing_control_tolerated (s : Browser) :
  elements s !! "dark-mode-toggle" = None →
  main s = Returned () (set_console (console s ++ [warning]) s)
  ∧ completes (main s) = true
  ∧ console (final (main s)) = (console s ++ [warning])%list
  ∧ elements (final (main s)) = elements s
  ∧ classList (final (main s)) = classList s
  ∧ localStorage (final (main s)) = localStorage s.
Proof.
  intros He. rewrite (main_missing s He). repeat split.
Qed.

(** C9. When the button is found and a token is stored, initialization
    calls [apply(stored === '1')]: for every token other than ["1"] that
    is [apply(false)], which leaves the marker off, [aria-pressed]
    ["false"] and the key rewritten to ["0"]; and the page ends up
    pressed exactly when the token is ["1"]. *)
Theorem stored_token_decoding (v : string) (s : Browser) :
  is_Some (elements s !! "dark-mode-toggle") →
  localStorage s !! "darkMode" = Some v →
  (v ≠ "1" →
     main s = init_with (JBool false) s
     ∧ dark_mode_class (final (main s)) = false
     ∧ aria_pressed "dark-mode-toggle" (final (main s)) = Some "false"
     ∧ darkMode_key (final (main s)) = Some "0")
  ∧ (main s = init_with (JBool true) s ↔ v = "1")
  ∧ (aria_pressed "dark-mode-toggle" (final (main s)) = Some "true" ↔ v = "1").
Proof.
  intros Hbtn Hv.
  pose proof (main_stored v s Hbtn Hv) as Hmain.
  destruct (init_with_bool_facets (String.eqb v "1") s Hbtn) as (_ & Hm & Ha & _ & Hk).
  rewrite <- Hmain in Hm, Ha, Hk.
  destruct (String.eqb_spec v "1") as [->|Hne]; simpl in *.
  - split; [done|]. rewrite Ha. split; split; done.
  - split; [intros _; rewrite Hm, Ha, Hk; repeat split; exact Hmain|].
    split; (split; [|done]).
    + intros Heq. rewrite Heq in Ha.
      destruct (init_with_bool_facets true s Hbtn) as (_ & _ & Ha' & _).
      rewrite Ha' in Ha. discriminate.
    + rewrite Ha. discriminate.
Qed.

End Init.

Section Toggle.

Variable btn : string.

Lemma aria_pressed_found (e : Element) (s : Browser) :
  elements s !! btn = Some e →
  aria_pressed btn s = attributes e !! "aria-pressed".
Proof. intros He. unfold aria_pressed. rewrite He. reflexivity. Qed.

Lemma handle_found (e : Element) (s : Browser) :
  elements s !! btn = Some e →
  handle (ToggleTheme btn) s
  = apply btn (JBool (negb (strict_eq (attributes e !! "aria-pressed") "true"))) s.
Proof.
  intros He. unfold handle, bind, getAttribute, with_element, ret.
  rewrite He. reflexivity.
Qed.

Lemma click_found (e : Element) (s : Browser) :
  elements s !! btn = Some e →
  click btn s = Returned () (invoke (listeners_for "click" e) s).
Proof.
  intros He. unfold click, dispatchEvent, with_element. rewrite He. reflexivity.
Qed.

Lemma strict_eq_true (o : option string) (lit : string) :
  strict_eq o lit = true ↔ o = Some lit.
Proof.
  destruct o as [v|]; simpl; [|split; discriminate].
  rewrite String.eqb_eq. split; congruence.
Qed.

Lemma apply_facets (enabled : jsval) (s : Browser) :
  is_Some (elements s !! btn) →
  completes (apply btn enabled s) = true
  ∧ aria_pressed btn (final (apply btn enabled s))
    = Some (String_of_bool (truthy enabled))
  ∧ label btn (final (apply btn enabled s))
    = Some (if truthy enabled then sun else moon)
  ∧ darkMode_key (final (apply btn enabled s))
    = Some (if truthy enabled then "1" else "0").
Proof.
  intros [e He]. rewrite (apply_found _ _ e s He).
  unfold aria_pressed, label, darkMode_key, applied; simpl.
  rewrite !lookup_insert_eq; simpl. rewrite !lookup_insert_eq.
  repeat split.
Qed.

Lemma apply_bool_marker (b : bool) (s : Browser) :
  dark_mode_class (final (apply btn (JBool b) s)) = b.
Proof.
  assert (classList (final (apply btn (JBool b) s))
          = DOMTokenList_toggle "dark-mode" (Some b) (classList s)) as Hc.
  { destruct (elements s !! btn) as [e|] eqn:He.
    - by rewrite (apply_found _ _ e s He).
    - by rewrite (apply_missing _ _ s He). }
  unfold dark_mode_class. rewrite Hc.
  destruct b.
  - apply bool_decide_true, toggle_forced. reflexivity.
  - apply bool_decide_false. intros H. by apply toggle_forced in H.
Qed.

(** C5. With [aria-pressed] reading ["true"] and the click listener bound
    once, a click on the button runs [apply(false)]: afterwards
    [aria-pressed] is ["false"], the persisted key is ["0"] and the marker
    is off. The label does not become the light-mode glyph: the script's
    comment on [apply] names the sun the light-mode icon and the moon the
    dark-mode icon, and the label the click leaves is the moon, not the
    sun. In general the listener calls [apply] with the negation of
    [aria-pressed === 'true'] as read from the page when it runs. *)
Theorem click_inverts_pressed (s : Browser) :
  aria_pressed btn s = Some "true" →
  click_listeners btn s = [ToggleTheme btn] →
  click btn s = Returned () (final (apply btn (JBool false) s))
  ∧ completes (apply btn (JBool false) s) = true
  ∧ aria_pressed btn (final (click btn s)) = Some "false"
  ∧ label btn (final (click btn s)) = Some moon
  ∧ label btn (final (click btn s)) ≠ Some sun
  ∧ darkMode_key (final (click btn s)) = Some "0"
  ∧ dark_mode_class (final (click btn s)) = false
  ∧ ∀ s0 : Browser,
      is_Some (elements s0 !! btn) →
      handle (ToggleTheme btn) s0
      = apply btn (JBool (negb (strict_eq (aria_pressed btn s0) "true"))) s0.
Proof.
  intros Hp Hl.
  destruct (elements s !! btn) as [e|] eqn:He;
    [|unfold aria_pressed in Hp; by rewrite He in Hp].
  rewrite (aria_pressed_found e s He) in Hp.
  unfold click_listeners in Hl. rewrite He in Hl. simpl in Hl.
  assert (click btn s = Returned () (final (apply btn (JBool false) s))) as Hclick.
  { rewrite (click_found e s He), Hl. cbn [invoke].
    rewrite (handle_found e s He), Hp. reflexivity. }
  destruct (apply_facets (JBool false) s) as (Hc & Ha & Hlab & Hk); [by eexists|].
  rewrite Hclick; cbn [final].
  split; [reflexivity|]. split; [exact Hc|]. split; [exact Ha|].
  split; [exact Hlab|].
  split; [rewrite Hlab; unfold sun, moon; simpl; discriminate|].
  split; [exact Hk|]. split.
  - apply apply_bool_marker.
  - intros s0 [e0 He0].
    rewrite (handle_found e0 s0 He0), (aria_pressed_found e0 s0 He0). reflexivity.
Qed.

(** C10. When [aria-pressed] is anything but exactly ["true"] (absent,
    ["false"], ["mixed"], ...), the click listener calls [apply(true)],
    which sets the marker and makes [aria-pressed] ["true"]. And after
    [apply] with any argument [aria-pressed] is ["true"] or ["false"]. *)
Theorem click_unpressed_enables (s : Browser) :
  is_Some (elements s !! btn) →
  aria_pressed btn s ≠ Some "true" →
  handle (ToggleTheme btn) s = apply btn (JBool true) s
  ∧ completes (handle (ToggleTheme btn) s) = true
  ∧ aria_pressed btn (final (handle (ToggleTheme btn) s)) = Some "true"
  ∧ dark_mode_class (final (handle (ToggleTheme btn) s)) = true
  ∧ ∀ (enabled : jsval) (s0 : Browser),
      is_Some (elements s0 !! btn) →
      aria_pressed btn (final (apply btn enabled s0)) = Some "true"
      ∨ aria_pressed btn (final (apply btn enabled s0)) = Some "false".
Proof.
  intros [e He] Hp.
  rewrite (aria_pressed_found e s He) in Hp.
  assert (strict_eq (attributes e !! "aria-pressed") "true" = false) as Hoff.
  { apply not_true_is_false. by rewrite strict_eq_true. }
  assert (handle (ToggleTheme btn) s = apply btn (JBool true) s) as Hh.
  { by rewrite (handle_found e s He), Hoff. }
  destruct (apply_facets (JBool true) s) as (Hc & Ha & _); [by eexists|].
  rewrite Hh. repeat split; try assumption.
  - apply apply_bool_marker.
  - intros enabled s0 Hbtn.
    destruct (apply_facets enabled s0 Hbtn) as (_ & Ha0 & _).
    rewrite Ha0. destruct (truthy enabled); [by left | by right].
Qed.

End Toggle.

(** Initialization binds exactly one more click listener to the button. *)
Lemma main_binds_listener (s : Browser) :
  is_Some (elements s !! "dark-mode-toggle") →
  click_listeners "dark-mode-toggle" (final (main s))
  = (click_listeners "dark-mode-toggle" s ++ [ToggleTheme "dark-mode-toggle"])%list.
Proof.
  intros Hbtn.
  assert (∀ enabled, click_listeners "dark-mode-toggle" (final (init_with enabled s))
    = (click_listeners "dark-mode-toggle" s ++ [ToggleTheme "dark-mode-toggle"])%list) as Hinit.
  { intros enabled. destruct Hbtn as [e He].
    rewrite (init_with_found _ e s He).
    unfold click_listeners, initialized, listeners_for; simpl.
    rewrite lookup_insert_eq, He; simpl.
    by rewrite filter_app, fmap_app. }
  destruct (localStorage s !! "darkMode") as [v|] eqn:Hv.
  - rewrite (main_stored v s Hbtn Hv). apply Hinit.
  - rewrite (main_unset s Hbtn Hv). apply Hinit.
Qed.

(** * The theorems at sample pages *)

Ltac button_is e := exists e; vm_compute; reflexivity.
Ltac evaluate := vm_compute; first [reflexivity | discriminate].

Lemma apply_consistent_witness :
  is_Some (elements (page_with None None) !! "dark-mode-toggle")
  ∧ ∃ s', apply "dark-mode-toggle" (JBool true) (page_with None None) = Returned () s'
      ∧ ("dark-mode" ∈ classList s' ↔ true = true)
      ∧ aria_pressed "dark-mode-toggle" s' = Some "true"
      ∧ (aria_pressed "dark-mode-toggle" s' = Some "true" ↔ true = true)
      ∧ label "dark-mode-toggle" s' = Some sun
      ∧ (label "dark-mode-toggle" s' = Some sun ↔ true = true)
      ∧ darkMode_key s' = Some "1"
      ∧ (darkMode_key s' = Some "1" ↔ true = true).
Proof.
  split; [button_is bare_button|].
  apply (apply_consistent "dark-mode-toggle" true (page_with None None)).
  button_is bare_button.
Defined.

Lemma apply_storage_roundtrip_witness :
  is_Some (elements (page_with (Some "0") None) !! "dark-mode-toggle")
  ∧ result ((apply "dark-mode-toggle" (JBool true) ;; localStorage_getItem "darkMode")
              (page_with (Some "0") None)) = Some (Some "1")
  ∧ result ((apply "dark-mode-toggle" (JBool false) ;; localStorage_getItem "darkMode")
              (page_with (Some "0") None)) = Some (Some "0").
Proof.
  split; [button_is bare_button|].
  destruct (apply_storage_roundtrip "dark-mode-toggle" (page_with (Some "0") None))
    as (Hon & Hoff & _); [button_is bare_button|].
  split; assumption.
Defined.

Lemma stored_one_wins_witness :
  is_Some (elements (page_with (Some "1") (Some system_light)) !! "dark-mode-toggle")
  ∧ localStorage (page_with (Some "1") (Some system_light)) !! "darkMode" = Some "1"
  ∧ main (page_with (Some "1") (Some system_light))
    = init_with (JBool true) (page_with (Some "1") (Some system_light))
  ∧ dark_mode_class (final (main (page_with (Some "1") (Some system_light)))) = true.
Proof.
  split; [button_is bare_button|].
  split; [evaluate|].
  destruct (stored_one_wins (page_with (Some "1") (Some system_light)))
    as (Hmain & _ & Hm & _);
    [button_is bare_button | evaluate |].
  split; assumption.
Defined.

Lemma system_dark_fallback_witness :
  is_Some (elements (page_with None (Some system_dark)) !! "dark-mode-toggle")
  ∧ localStorage (page_with None (Some system_dark)) !! "darkMode" = None
  ∧ matchMedia (page_with None (Some system_dark)) = Some system_dark
  ∧ system_dark "(prefers-color-scheme: dark)" = true
  ∧ main (page_with None (Some system_dark))
    = init_with (JBool true) (page_with None (Some system_dark))
  ∧ dark_mode_class (final (main (page_with None (Some system_dark)))) = true.
Proof.
  split; [button_is bare_button|].
  do 3 (split; [evaluate|]).
  destruct (system_dark_fallback system_dark (page_with None (Some system_dark)))
    as (Hmain & _ & Hm & _);
    [button_is bare_button | evaluate
    | reflexivity | evaluate |].
  split; assumption.
Defined.

(** C4 as the spec states it fails: on a page with the header loaded,
    nothing stored and a system that prefers dark, initialization resolves
    the theme from the signal and the key is ["1"] afterwards, not unset. *)
Lemma init_leaves_storage_unset_counterexample :
  darkMode_key (page_with None (Some system_dark)) = None
  ∧ main (page_with None (Some system_dark))
    = init_with (JBool true) (page_with None (Some system_dark))
  ∧ completes (main (page_with None (Some system_dark))) = true
  ∧ darkMode_key (final (main (page_with None (Some system_dark)))) = Some "1"
  ∧ ¬ (darkMode_key (page_with None (Some system_dark)) = None →
       darkMode_key (final (main (page_with None (Some system_dark)))) = None).
Proof.
  assert (darkMode_key (final (main (page_with None (Some system_dark)))) = Some "1") as Hk
    by evaluate.
  repeat split; try evaluate.
  intros Hclaim. rewrite Hk in Hclaim.
  assert (Some "1" = None) as Habs by (apply Hclaim; evaluate).
  discriminate Habs.
Qed.

Lemma init_persists_resolved_theme_witness :
  is_Some (elements (page_with None None) !! "dark-mode-toggle")
  ∧ darkMode_key (page_with None None) = None
  ∧ ∃ dark : jsval,
      prefersDark (page_with None None) = Returned dark (page_with None None)
      ∧ main (page_with None None) = init_with dark (page_with None None)
      ∧ completes (main (page_with None None)) = true
      ∧ darkMode_key (final (main (page_with None None)))
        = Some (if truthy dark then "1" else "0")
      ∧ ∀ key, key ≠ "darkMode" →
          localStorage (final (main (page_with None None))) !! key
          = localStorage (page_with None None) !! key.
Proof.
  split; [button_is bare_button|].
  split; [evaluate|].
  apply (init_persists_resolved_theme (page_with None None));
    [button_is bare_button | evaluate].
Defined.

Lemma missing_control_tolerated_witness :
  elements (page_without_header (Some "1")) !! "dark-mode-toggle" = None
  ∧ main (page_without_header (Some "1"))
    = Returned () (set_console (console (page_without_header (Some "1")) ++ [warning])
                     (page_without_header (Some "1")))
  ∧ completes (main (page_without_header (Some "1"))) = true
  ∧ console (final (main (page_without_header (Some "1"))))
    = (console (page_without_header (Some "1")) ++ [warning])%list
  ∧ elements (final (main (page_without_header (Some "1"))))
    = elements (page_without_header (Some "1"))
  ∧ classList (final (main (page_without_header (Some "1"))))
    = classList (page_without_header (Some "1"))
  ∧ localStorage (final (main (page_without_header (Some "1"))))
    = localStorage (page_without_header (Some "1")).
Proof.
  split; [evaluate|].
  apply (missing_control_tolerated (page_without_header (Some "1"))).
  evaluate.
Defined.

Lemma stored_token_decoding_witness :
  is_Some (elements (page_with (Some "dark") (Some system_dark)) !! "dark-mode-toggle")
  ∧ localStorage (page_with (Some "dark") (Some system_dark)) !! "darkMode" = Some "dark"
  ∧ "dark" ≠ "1"
  ∧ main (page_with (Some "dark") (Some system_dark))
    = init_with (JBool false) (page_with (Some "dark") (Some system_dark))
  ∧ dark_mode_class (final (main (page_with (Some "dark") (Some system_dark)))) = false
  ∧ aria_pressed "dark-mode-toggle"
      (final (main (page_with (Some "dark") (Some system_dark)))) = Some "false"
  ∧ darkMode_key (final (main (page_with (Some "dark") (Some system_dark)))) = Some "0".
Proof.
  split; [button_is bare_button|].
  split; [evaluate|].
  split; [discriminate|].
  destruct (stored_token_decoding "dark" (page_with (Some "dark") (Some system_dark)))
    as (Hlight & _);
    [button_is bare_button | evaluate |].
  apply Hlight. discriminate.
Defined.

Lemma click_inverts_pressed_witness :
  aria_pressed "dark-mode-toggle" (final (main (page_with (Some "1") None))) = Some "true"
  ∧ click_listeners "dark-mode-toggle" (final (main (page_with (Some "1") None)))
    = [ToggleTheme "dark-mode-toggle"]
  ∧ label "dark-mode-toggle" (final (main (page_with (Some "1") None))) = Some sun
  ∧ aria_pressed "dark-mode-toggle"
      (final (click "dark-mode-toggle" (final (main (page_with (Some "1") None)))))
    = Some "false"
  ∧ label "dark-mode-toggle"
      (final (click "dark-mode-toggle" (final (main (page_with (Some "1") None)))))
    = Some moon
  ∧ label "dark-mode-toggle"
      (final (click "dark-mode-toggle" (final (main (page_with (Some "1") None)))))
    ≠ Some sun
  ∧ darkMode_key
      (final (click "dark-mode-toggle" (final (main (page_with (Some "1") None)))))
    = Some "0".
Proof.
  split; [evaluate|].
  split; [evaluate|].
  split; [evaluate|].
  destruct (click_inverts_pressed "dark-mode-toggle"
              (final (main (page_with (Some "1") None))))
    as (_ & _ & Ha & Hl & Hne & Hk & _); [evaluate | evaluate |].
  split; [exact Ha|]. split; [exact Hl|]. split; [exact Hne | exact Hk].
Defined.

Lemma click_unpressed_enables_witness :
  is_Some (elements (page_with_button mixed_button None None) !! "dark-mode-toggle")
  ∧ aria_pressed "dark-mode-toggle" (page_with_button mixed_button None None)
    = Some "mixed"
  ∧ aria_pressed "dark-mode-toggle" (page_with_button mixed_button None None)
    ≠ Some "true"
  ∧ handle (ToggleTheme "dark-mode-toggle") (page_with_button mixed_button None None)
    = apply "dark-mode-toggle" (JBool true) (page_with_button mixed_button None None)
  ∧ aria_pressed "dark-mode-toggle"
      (final (handle (ToggleTheme "dark-mode-toggle")
                (page_with_button mixed_button None None)))
    = Some "true".
Proof.
  split; [button_is mixed_button|].
  split; [evaluate|].
  split; [evaluate|].
  destruct (click_unpressed_enables "dark-mode-toggle"
              (page_with_button mixed_button None None))
    as (Hh & _ & Ha & _);
    [button_is mixed_button | evaluate |].
  split; assumption.
Defined.

(** * Further properties of the script *)

(** ** The class list *)

Lemma elem_of_toggle_other (token : string) (force : option bool) (c : gset string)
    (x : string) :
  x ≠ token → x ∈ DOMTokenList_toggle token force c ↔ x ∈ c.
Proof.
  intros Hne. unfold DOMTokenList_toggle.
  case_bool_decide; destruct force as [[]|]; try done.
  - rewrite elem_of_difference, elem_of_singleton. tauto.
  - rewrite elem_of_difference, elem_of_singleton. tauto.
  - rewrite elem_of_union, elem_of_singleton. tauto.
  - rewrite elem_of_union, elem_of_singleton. tauto.
Qed.

Lemma toggle_unforced (token : string) (c : gset string) :
  token ∈ DOMTokenList_toggle token None c ↔ token ∉ c.
Proof.
  unfold DOMTokenList_toggle. case_bool_decide as Hin.
  - rewrite elem_of_difference, elem_of_singleton. tauto.
  - rewrite elem_of_union, elem_of_singleton. tauto.
Qed.

Lemma toggle_absorbs (token : string) (force : option bool) (b : bool)
    (c : gset string) :
  DOMTokenList_toggle token (Some b) (DOMTokenList_toggle token force c)
  = DOMTokenList_toggle token (Some b) c.
Proof.
  apply set_eq. intros x.
  destruct (decide (x = token)) as [->|Hne].
  - by rewrite !toggle_forced.
  - by rewrite !elem_of_toggle_other.
Qed.

(** ** One [apply] after another *)

Lemma apply_absorbs (btn : string) (enabled : jsval) (b : bool) (s : Browser) :
  is_Some (elements s !! btn) →
  (apply btn enabled ;; apply btn (JBool b)) s = apply btn (JBool b) s.
Proof.
  intros [e He]. unfold bind.
  rewrite (apply_found btn enabled e s He).
  erewrite apply_found by (simpl; apply lookup_insert_eq).
  rewrite (apply_found btn (JBool b) e s He).
  unfold applied; simpl.
  rewrite !insert_insert_eq, toggle_absorbs.
  reflexivity.
Qed.

(** X1. Whatever [apply] ran before, with whatever argument, a following
    [apply(b)] with a boolean [b] leaves exactly the state [apply(b)] alone
    leaves: the four facets are overwritten, never accumulated. *)
Theorem apply_last_wins (btn : string) (enabled : jsval) (b : bool) (s : Browser) :
  is_Some (elements s !! btn) →
  (apply btn enabled ;; apply btn (JBool b)) s = apply btn (JBool b) s.
Proof. apply apply_absorbs. Qed.

Lemma apply_last_wins_witness :
  is_Some (elements (page_with None None) !! "dark-mode-toggle")
  ∧ (apply "dark-mode-toggle" JUndefined ;; apply "dark-mode-toggle" (JBool false))
      (page_with None None)
    = apply "dark-mode-toggle" (JBool false) (page_with None None).
Proof.
  split; [button_is bare_button|].
  apply (apply_last_wins "dark-mode-toggle" JUndefined false (page_with None None)).
  button_is bare_button.
Defined.

(** X2. Outside its four facets [apply] leaves the store, the root element
    and the button itself alone: every other localStorage key, the button's
    listeners and its attributes other than [aria-pressed], every class of
    the root element other than [dark-mode], [window.matchMedia] and the
    console are as before. (Nothing is said of the other elements: the
    assignment to [textContent] discards whatever children the button
    had.) *)
Theorem apply_frame (btn : string) (enabled : jsval) (e : Element) (s : Browser) :
  elements s !! btn = Some e →
  (∀ key, key ≠ "darkMode" →
     localStorage (final (apply btn enabled s)) !! key = localStorage s !! key)
  ∧ (∃ e', elements (final (apply btn enabled s)) !! btn = Some e'
       ∧ listeners e' = listeners e
       ∧ ∀ name, name ≠ "aria-pressed" → attributes e' !! name = attributes e !! name)
  ∧ (∀ token, token ≠ "dark-mode" →
       token ∈ classList (final (apply btn enabled s)) ↔ token ∈ classList s)
  ∧ matchMedia (final (apply btn enabled s)) = matchMedia s
  ∧ console (final (apply btn enabled s)) = console s.
Proof.
  intros He. rewrite (apply_found btn enabled e s He).
  unfold applied; simpl.
  split; [intros key Hkey; by rewrite lookup_insert_ne|].
  split.
  { eexists. split; [apply lookup_insert_eq|]. simpl.
    split; [reflexivity|]. intros name Hname. by rewrite lookup_insert_ne. }
  split; [intros token Htoken; by apply elem_of_toggle_other|].
  split; reflexivity.
Qed.

Lemma apply_frame_witness :
  elements (page_with_button mixed_button (Some "0") None) !! "dark-mode-toggle"
  = Some mixed_button
  ∧ (∃ e', elements (final (apply "dark-mode-toggle" (JBool true)
                              (page_with_button mixed_button (Some "0") None)))
             !! "dark-mode-toggle" = Some e'
       ∧ listeners e' = listeners mixed_button
       ∧ ∀ name, name ≠ "aria-pressed" →
           attributes e' !! name = attributes mixed_button !! name)
  ∧ console (final (apply "dark-mode-toggle" (JBool true)
                      (page_with_button mixed_button (Some "0") None)))
    = console (page_with_button mixed_button (Some "0") None).
Proof.
  split; [evaluate|].
  destruct (apply_frame "dark-mode-toggle" (JBool true) mixed_button
              (page_with_button mixed_button (Some "0") None))
    as (_ & Hbtn & _ & _ & Hconsole); [evaluate|].
  split; assumption.
Defined.

(** ** Initialization *)

Lemma main_resolves (s : Browser) :
  is_Some (elements s !! "dark-mode-toggle") →
  ∃ enabled : jsval, main s = init_with enabled s.
Proof.
  intros Hbtn. destruct (localStorage s !! "darkMode") as [v|] eqn:Hv.
  - eexists. by apply main_stored.
  - eexists. by apply main_unset.
Qed.

Lemma init_with_facets (enabled : jsval) (s : Browser) :
  is_Some (elements s !! "dark-mode-toggle") →
  aria_pressed "dark-mode-toggle" (final (init_with enabled s))
  = Some (String_of_bool (truthy enabled))
  ∧ label "dark-mode-toggle" (final (init_with enabled s))
    = Some (if truthy enabled then sun else moon)
  ∧ darkMode_key (final (init_with enabled s))
    = Some (if truthy enabled then "1" else "0").
Proof.
  intros [e He]. rewrite (init_with_found _ e s He).
  unfold aria_pressed, label, darkMode_key, initialized; simpl.
  rewrite !lookup_insert_eq; simpl. rewrite !lookup_insert_eq.
  repeat split.
Qed.

(** X3. When the button is found, nothing is stored and [window.matchMedia]
    does not exist, initialization passes [undefined] to [apply]: the
    [dark-mode] class of the root element is flipped (added when absent,
    removed when present), while [aria-pressed] becomes ["false"], the label
    the moon and the key ["0"]. *)
Theorem init_without_matchMedia (s : Browser) :
  is_Some (elements s !! "dark-mode-toggle") →
  localStorage s !! "darkMode" = None →
  matchMedia s = None →
  main s = init_with JUndefined s
  ∧ dark_mode_class (final (main s)) = negb (dark_mode_class s)
  ∧ aria_pressed "dark-mode-toggle" (final (main s)) = Some "false"
  ∧ label "dark-mode-toggle" (final (main s)) = Some moon
  ∧ darkMode_key (final (main s)) = Some "0".
Proof.
  intros Hbtn Hv Hmm.
  pose proof (main_unset s Hbtn Hv) as Hmain. rewrite Hmm in Hmain.
  destruct (init_with_facets JUndefined s Hbtn) as (Ha & Hl & Hk).
  rewrite Hmain. repeat split; try assumption.
  destruct Hbtn as [e He]. rewrite (init_with_found _ e s He).
  unfold dark_mode_class, initialized; simpl.
  destruct (decide ("dark-mode" ∈ classList s)) as [Hin|Hin].
  - rewrite (bool_decide_true _ Hin); simpl.
    apply bool_decide_false. rewrite toggle_unforced. tauto.
  - rewrite (bool_decide_false _ Hin); simpl.
    by apply bool_decide_true, toggle_unforced.
Qed.

Lemma init_without_matchMedia_witness :
  is_Some (elements (page_with None None) !! "dark-mode-toggle")
  ∧ localStorage (page_with None None) !! "darkMode" = None
  ∧ matchMedia (page_with None None) = None
  ∧ dark_mode_class (page_with None None) = false
  ∧ dark_mode_class (final (main (page_with None None))) = negb (dark_mode_class (page_with None None))
  ∧ aria_pressed "dark-mode-toggle" (final (main (page_with None None))) = Some "false".
Proof.
  split; [button_is bare_button|].
  do 3 (split; [evaluate|]).
  destruct (init_without_matchMedia (page_with None None)) as (_ & Hm & Ha & _);
    [button_is bare_button | evaluate | evaluate |].
  split; assumption.
Defined.

(** X4. What [apply] stores is what the next page load restores: if a page
    starts with the key as some [apply(enabled)] left it and its button is
    found, initialization calls [apply] with the boolean [Boolean(enabled)],
    whatever the system prefers, and shows the same [aria-pressed] and
    label as that earlier [apply] did. *)
Theorem stored_theme_survives_reload (btn : string) (enabled : jsval)
    (s s' : Browser) :
  is_Some (elements s !! btn) →
  is_Some (elements s' !! "dark-mode-toggle") →
  localStorage s' !! "darkMode" = darkMode_key (final (apply btn enabled s)) →
  main s' = init_with (JBool (truthy enabled)) s'
  ∧ dark_mode_class (final (main s')) = truthy enabled
  ∧ aria_pressed "dark-mode-toggle" (final (main s'))
    = aria_pressed btn (final (apply btn enabled s))
  ∧ label "dark-mode-toggle" (final (main s')) = label btn (final (apply btn enabled s))
  ∧ darkMode_key (final (main s')) = darkMode_key (final (apply btn enabled s)).
Proof.
  intros Hbtn Hbtn' Hkey.
  destruct (apply_facets btn enabled s Hbtn) as (_ & Ha & Hl & Hk).
  rewrite Hk in Hkey.
  assert (main s' = init_with (JBool (truthy enabled)) s') as Hmain.
  { rewrite (main_stored _ s' Hbtn' Hkey). by destruct (truthy enabled). }
  destruct (init_with_bool_facets (truthy enabled) s' Hbtn') as (_ & Hm' & Ha' & Hl' & Hk').
  rewrite Hmain, Ha, Hl, Hk. repeat split; assumption.
Qed.

Lemma stored_theme_survives_reload_witness :
  is_Some (elements (page_with None None) !! "dark-mode-toggle")
  ∧ is_Some (elements (page_with (Some "1") (Some system_light)) !! "dark-mode-toggle")
  ∧ localStorage (page_with (Some "1") (Some system_light)) !! "darkMode"
    = darkMode_key (final (apply "dark-mode-toggle" (JBool true) (page_with None None)))
  ∧ main (page_with (Some "1") (Some system_light))
    = init_with (JBool true) (page_with (Some "1") (Some system_light))
  ∧ dark_mode_class (final (main (page_with (Some "1") (Some system_light)))) = true.
Proof.
  split; [button_is bare_button|].
  split; [button_is bare_button|].
  split; [evaluate|].
  destruct (stored_theme_survives_reload "dark-mode-toggle" (JBool true)
              (page_with None None) (page_with (Some "1") (Some system_light)))
    as (Hmain & Hm & _); [button_is bare_button | button_is bare_button | evaluate |].
  split; assumption.
Defined.

(** X5. Initialization leaves every localStorage key other than
    [darkMode], every class of the root element other than [dark-mode] and
    [window.matchMedia] as they were; and when the button is found nothing
    is logged, the button keeps its attributes other than [aria-pressed],
    and its listeners are the earlier ones followed by the one new click
    listener. (Nothing is said of the other elements: the assignment to
    [textContent] discards whatever children the button had.) *)
Theorem main_frame (s : Browser) :
  (∀ key, key ≠ "darkMode" → localStorage (final (main s)) !! key = localStorage s !! key)
  ∧ (∀ token, token ≠ "dark-mode" → token ∈ classList (final (main s)) ↔ token ∈ classList s)
  ∧ matchMedia (final (main s)) = matchMedia s
  ∧ ∀ e, elements s !! "dark-mode-toggle" = Some e →
      console (final (main s)) = console s
      ∧ ∃ e', elements (final (main s)) !! "dark-mode-toggle" = Some e'
          ∧ listeners e'
            = (listeners e ++ [("click", ToggleTheme "dark-mode-toggle")])%list
          ∧ ∀ name, name ≠ "aria-pressed" → attributes e' !! name = attributes e !! name.
Proof.
  destruct (elements s !! "dark-mode-toggle") as [e|] eqn:He.
  - destruct (main_resolves s) as [enabled Hmain]; [by exists e|].
    rewrite Hmain, (init_with_found _ e s He).
    unfold initialized; simpl.
    split; [intros key Hkey; by rewrite lookup_insert_ne|].
    split; [intros token Htoken; by apply elem_of_toggle_other|].
    split; [reflexivity|].
    intros e0 [= <-]. split; [reflexivity|].
    eexists. split; [apply lookup_insert_eq|]. simpl.
    split; [reflexivity|]. intros name Hname. by rewrite lookup_insert_ne.
  - rewrite (main_missing s He). simpl.
    repeat split; try done.
Qed.

(** ** Clicks *)

Lemma strict_eq_String_of_bool (b : bool) :
  strict_eq (Some (String_of_bool b)) "true" = b.
Proof. by destruct b. Qed.

Lemma click_listeners_found (btn : string) (e : Element) (s : Browser) :
  elements s !! btn = Some e →
  click_listeners btn s = listeners_for "click" e.
Proof. intros He. unfold click_listeners. by rewrite He. Qed.

Lemma click_single (btn : string) (e : Element) (s : Browser) :
  elements s !! btn = Some e →
  listeners_for "click" e = [ToggleTheme btn] →
  click btn s
  = apply btn (JBool (negb (strict_eq (attributes e !! "aria-pressed") "true"))) s.
Proof.
  intros He Hl.
  rewrite (click_found btn e s He), Hl. cbn [invoke].
  rewrite (handle_found btn e s He), (apply_found btn _ e s He).
  reflexivity.
Qed.

(** After [apply], the button is still there, with the listeners it had and
    [aria-pressed] set. *)
Lemma applied_button (btn : string) (enabled : jsval) (e : Element) (s : Browser) :
  elements s !! btn = Some e →
  ∃ e', elements (final (apply btn enabled s)) !! btn = Some e'
    ∧ listeners_for "click" e' = listeners_for "click" e
    ∧ attributes e' !! "aria-pressed" = Some (String_of_bool (truthy enabled)).
Proof.
  intros He. rewrite (apply_found btn enabled e s He).
  eexists. split; [apply lookup_insert_eq|].
  split; [reflexivity|]. simpl. apply lookup_insert_eq.
Qed.

(** X6. With the click listener bound once, two clicks in a row amount to
    one [apply] of the state [aria-pressed] showed before them: the second
    click undoes the first, and the page is re-synchronised to that
    state. *)
Theorem double_click_reapplies (btn : string) (s : Browser) :
  is_Some (elements s !! btn) →
  click_listeners btn s = [ToggleTheme btn] →
  (click btn ;; click btn) s
  = apply btn (JBool (strict_eq (aria_pressed btn s) "true")) s.
Proof.
  intros [e He] Hl.
  rewrite (click_listeners_found btn e s He) in Hl.
  rewrite (aria_pressed_found btn e s He).
  set (isOn := strict_eq (attributes e !! "aria-pressed") "true").
  pose proof (apply_absorbs btn (JBool (negb isOn)) isOn s) as Habs.
  destruct (applied_button btn (JBool (negb isOn)) e s He) as (e1 & He1 & Hl1 & Ha1).
  unfold bind in *.
  rewrite (click_single btn e s He Hl). fold isOn.
  rewrite (apply_found btn _ e s He) in *. cbn [final] in He1.
  rewrite (click_single btn e1 _ He1) by congruence.
  rewrite Ha1, strict_eq_String_of_bool. cbn [truthy].
  rewrite negb_involutive. apply Habs. by exists e.
Qed.

Lemma double_click_reapplies_witness :
  is_Some (elements (final (main (page_with (Some "1") None))) !! "dark-mode-toggle")
  ∧ click_listeners "dark-mode-toggle" (final (main (page_with (Some "1") None)))
    = [ToggleTheme "dark-mode-toggle"]
  ∧ (click "dark-mode-toggle" ;; click "dark-mode-toggle")
      (final (main (page_with (Some "1") None)))
    = apply "dark-mode-toggle"
        (JBool (strict_eq (aria_pressed "dark-mode-toggle"
                             (final (main (page_with (Some "1") None)))) "true"))
        (final (main (page_with (Some "1") None))).
Proof.
  split; [eexists; vm_compute; reflexivity|].
  split; [evaluate|].
  apply (double_click_reapplies "dark-mode-toggle"
           (final (main (page_with (Some "1") None))));
    [eexists; vm_compute; reflexivity | evaluate].
Defined.

Lemma clicks_S (btn : string) (n : nat) (e : Element) (s : Browser) :
  elements s !! btn = Some e →
  listeners_for "click" e = [ToggleTheme btn] →
  clicks (S n) btn s
  = clicks n btn
      (final (apply btn
                (JBool (negb (strict_eq (attributes e !! "aria-pressed") "true"))) s)).
Proof.
  intros He Hl. cbn [clicks]. unfold bind.
  rewrite (click_single btn e s He Hl), (apply_found btn _ e s He).
  reflexivity.
Qed.

Lemma clicks_facets (btn : string) (n : nat) :
  ∀ (e : Element) (s : Browser),
    elements s !! btn = Some e →
    listeners_for "click" e = [ToggleTheme btn] →
    completes (clicks (S n) btn s) = true
    ∧ dark_mode_class (final (clicks (S n) btn s))
      = xorb (Nat.odd (S n)) (strict_eq (attributes e !! "aria-pressed") "true")
    ∧ aria_pressed btn (final (clicks (S n) btn s))
      = Some (String_of_bool
                (xorb (Nat.odd (S n)) (strict_eq (attributes e !! "aria-pressed") "true")))
    ∧ darkMode_key (final (clicks (S n) btn s))
      = Some (if xorb (Nat.odd (S n)) (strict_eq (attributes e !! "aria-pressed") "true")
              then "1" else "0").
Proof.
  induction n as [|n IH]; intros e s He Hl; rewrite (clicks_S btn _ e s He Hl).
  - cbn [clicks ret completes final].
    destruct (apply_facets btn
                (JBool (negb (strict_eq (attributes e !! "aria-pressed") "true"))) s)
      as (_ & Ha & _ & Hk); [by exists e|].
    rewrite Ha, Hk, apply_bool_marker. cbn [truthy].
    change (Nat.odd 1) with true.
    by destruct (strict_eq (attributes e !! "aria-pressed") "true").
  - destruct (applied_button btn
                (JBool (negb (strict_eq (attributes e !! "aria-pressed") "true"))) e s He)
      as (e1 & He1 & Hl1 & Ha1).
    destruct (IH e1 _ He1) as (Hc & Hm & Ha & Hk); [congruence|].
    rewrite Hc, Hm, Ha, Hk, Ha1, strict_eq_String_of_bool. cbn [truthy].
    rewrite (Nat.odd_succ (S n)), (Nat.even_succ n), (Nat.odd_succ n), <- Nat.negb_odd.
    by destruct (Nat.odd n), (strict_eq (attributes e !! "aria-pressed") "true").
Qed.

(** X7. With the click listener bound once, [n] clicks in a row ([n] at
    least one) all complete and leave the theme on exactly when [n] is odd
    and [aria-pressed] did not read ["true"] before, or [n] is even and it
    did; the [dark-mode] class, [aria-pressed] and the stored key all show
    that same state. *)
Theorem clicks_alternate (btn : string) (n : nat) (s : Browser) :
  is_Some (elements s !! btn) →
  click_listeners btn s = [ToggleTheme btn] →
  completes (clicks (S n) btn s) = true
  ∧ dark_mode_class (final (clicks (S n) btn s))
    = xorb (Nat.odd (S n)) (strict_eq (aria_pressed btn s) "true")
  ∧ aria_pressed btn (final (clicks (S n) btn s))
    = Some (String_of_bool (xorb (Nat.odd (S n)) (strict_eq (aria_pressed btn s) "true")))
  ∧ darkMode_key (final (clicks (S n) btn s))
    = Some (if xorb (Nat.odd (S n)) (strict_eq (aria_pressed btn s) "true")
            then "1" else "0").
Proof.
  intros [e He] Hl.
  rewrite (click_listeners_found btn e s He) in Hl.
  rewrite (aria_pressed_found btn e s He).
  by apply clicks_facets.
Qed.

Lemma clicks_alternate_witness :
  is_Some (elements (final (main (page_with (Some "0") None))) !! "dark-mode-toggle")
  ∧ click_listeners "dark-mode-toggle" (final (main (page_with (Some "0") None)))
    = [ToggleTheme "dark-mode-toggle"]
  ∧ aria_pressed "dark-mode-toggle"
      (final (clicks 3 "dark-mode-toggle" (final (main (page_with (Some "0") None)))))
    = Some (String_of_bool
              (xorb (Nat.odd 3)
                 (strict_eq (aria_pressed "dark-mode-toggle"
                               (final (main (page_with (Some "0") None)))) "true")))
  ∧ aria_pressed "dark-mode-toggle"
      (final (clicks 3 "dark-mode-toggle" (final (main (page_with (Some "0") None)))))
    = Some "true".
Proof.
  split; [eexists; vm_compute; reflexivity|].
  split; [evaluate|].
  destruct (clicks_alternate "dark-mode-toggle" 2
              (final (main (page_with (Some "0") None))))
    as (_ & _ & Ha & _); [eexists; vm_compute; reflexivity | evaluate |].
  split; [exact Ha | evaluate].
Defined.

(** ** The script loaded twice *)

Lemma main_keeps_button (s : Browser) :
  is_Some (elements s !! "dark-mode-toggle") →
  is_Some (elements (final (main s)) !! "dark-mode-toggle").
Proof.
  intros Hbtn. destruct (main_resolves s Hbtn) as [enabled Hmain].
  destruct Hbtn as [e He].
  rewrite Hmain, (init_with_found _ e s He).
  eexists. apply lookup_insert_eq.
Qed.

Lemma click_double (btn : string) (e : Element) (s : Browser) :
  elements s !! btn = Some e →
  listeners_for "click" e = [ToggleTheme btn; ToggleTheme btn] →
  final (click btn s)
  = final (apply btn (JBool (strict_eq (attributes e !! "aria-pressed") "true")) s).
Proof.
  intros He Hl.
  set (isOn := strict_eq (attributes e !! "aria-pressed") "true").
  pose proof (apply_absorbs btn (JBool (negb isOn)) isOn s) as Habs.
  destruct (applied_button btn (JBool (negb isOn)) e s He) as (e1 & He1 & _ & Ha1).
  rewrite (click_found btn e s He), Hl. cbn [invoke final].
  rewrite (handle_found btn e s He). fold isOn.
  rewrite (handle_found btn e1 _ He1), Ha1, strict_eq_String_of_bool.
  cbn [truthy]. rewrite negb_involutive.
  unfold bind in Habs. rewrite (apply_found btn (JBool (negb isOn)) e s He) in *.
  cbn [final]. rewrite Habs; [reflexivity | by exists e].
Qed.

(** X8. When the script runs twice on a page whose button had no click
    listener, the button ends up with two click listeners, and a click then
    runs both: the second undoes the first, so the [dark-mode] class,
    [aria-pressed], the label and the stored key are after the click what
    they were before it. *)
Theorem click_after_double_init (s : Browser) :
  is_Some (elements s !! "dark-mode-toggle") →
  click_listeners "dark-mode-toggle" s = [] →
  click_listeners "dark-mode-toggle" (final (main (final (main s))))
  = [ToggleTheme "dark-mode-toggle"; ToggleTheme "dark-mode-toggle"]
  ∧ dark_mode_class (final (click "dark-mode-toggle" (final (main (final (main s))))))
    = dark_mode_class (final (main (final (main s))))
  ∧ aria_pressed "dark-mode-toggle"
      (final (click "dark-mode-toggle" (final (main (final (main s))))))
    = aria_pressed "dark-mode-toggle" (final (main (final (main s))))
  ∧ label "dark-mode-toggle"
      (final (click "dark-mode-toggle" (final (main (final (main s))))))
    = label "dark-mode-toggle" (final (main (final (main s))))
  ∧ darkMode_key (final (click "dark-mode-toggle" (final (main (final (main s))))))
    = darkMode_key (final (main (final (main s)))).
Proof.
  intros Hbtn Hl.
  pose proof (main_keeps_button s Hbtn) as Hbtn1.
  pose proof (main_keeps_button _ Hbtn1) as Hbtn2.
  assert (click_listeners "dark-mode-toggle" (final (main (final (main s))))
          = [ToggleTheme "dark-mode-toggle"; ToggleTheme "dark-mode-toggle"]) as Hl2.
  { by rewrite !main_binds_listener, Hl. }
  split; [exact Hl2|].
  (* the second run reads the token the first one stored *)
  destruct (main_resolves s Hbtn) as [enabled Hmain].
  destruct (init_with_facets enabled s Hbtn) as (_ & _ & Hk1).
  rewrite <- Hmain in Hk1.
  pose proof (main_stored _ _ Hbtn1 Hk1) as Hmain2.
  set (b := String.eqb (if truthy enabled then "1" else "0") "1") in Hmain2.
  destruct (init_with_bool_facets b _ Hbtn1) as (_ & Hm2 & Ha2 & Hlab2 & Hk2).
  rewrite <- Hmain2 in Hm2, Ha2, Hlab2, Hk2.
  (* the click re-applies the state the page shows *)
  destruct Hbtn2 as [e2 He2].
  rewrite (click_listeners_found _ e2 _ He2) in Hl2.
  rewrite (click_double _ e2 _ He2 Hl2).
  rewrite <- (aria_pressed_found _ e2 _ He2), Ha2, strict_eq_String_of_bool.
  destruct (apply_facets "dark-mode-toggle" (JBool b) (final (main (final (main s)))))
    as (_ & Ha & Hlab & Hk); [by exists e2|].
  rewrite apply_bool_marker, Ha, Hlab, Hk, Hm2, Hlab2, Hk2.
  done.
Qed.

Lemma click_after_double_init_witness :
  is_Some (elements (page_with None (Some system_dark)) !! "dark-mode-toggle")
  ∧ click_listeners "dark-mode-toggle" (page_with None (Some system_dark)) = []
  ∧ click_listeners "dark-mode-toggle"
      (final (main (final (main (page_with None (Some system_dark))))))
    = [ToggleTheme "dark-mode-toggle"; ToggleTheme "dark-mode-toggle"]
  ∧ aria_pressed "dark-mode-toggle"
      (final (click "dark-mode-toggle"
                (final (main (final (main (page_with None (Some system_dark))))))))
    = aria_pressed "dark-mode-toggle"
        (final (main (final (main (page_with None (Some system_dark))))))
  ∧ aria_pressed "dark-mode-toggle"
      (final (click "dark-mode-toggle"
                (final (main (final (main (page_with None (Some system_dark))))))))
    = Some "true".
Proof.
  split; [button_is bare_button|].
  split; [evaluate|].
  destruct (click_after_double_init (page_with None (Some system_dark)))
    as (Hl & _ & Ha & _); [button_is bare_button | evaluate |].
  split; [exact Hl|]. split; [exact Ha|]. evaluate.
Defined.

(** ** The page after initialization *)

(** X10. After every initialization that finds the button, the button and
    the store agree on one boolean: [aria-pressed] is its string form, the
    label its glyph and the stored key its token. The [dark-mode] class
    agrees with it too whenever the theme came from a stored token or from
    an existing [window.matchMedia]. *)
Theorem main_leaves_facets_in_step (s : Browser) :
  is_Some (elements s !! "dark-mode-toggle") →
  ∃ b : bool,
    aria_pressed "dark-mode-toggle" (final (main s)) = Some (String_of_bool b)
    ∧ label "dark-mode-toggle" (final (main s)) = Some (if b then sun else moon)
    ∧ darkMode_key (final (main s)) = Some (if b then "1" else "0")
    ∧ (is_Some (localStorage s !! "darkMode") ∨ is_Some (matchMedia s) →
       dark_mode_class (final (main s)) = b).
Proof.
  intros Hbtn.
  destruct (localStorage s !! "darkMode") as [v|] eqn:Hv;
    [|destruct (matchMedia s) as [query|] eqn:Hmm].
  - exists (String.eqb v "1").
    rewrite (main_stored v s Hbtn Hv).
    destruct (init_with_bool_facets (String.eqb v "1") s Hbtn) as (_ & Hm & Ha & Hl & Hk).
    by repeat split.
  - exists (query "(prefers-color-scheme: dark)").
    rewrite (main_unset s Hbtn Hv), Hmm.
    destruct (init_with_bool_facets (query "(prefers-color-scheme: dark)") s Hbtn)
      as (_ & Hm & Ha & Hl & Hk).
    by repeat split.
  - exists false.
    rewrite (main_unset s Hbtn Hv), Hmm.
    destruct (init_with_facets JUndefined s Hbtn) as (Ha & Hl & Hk).
    repeat split; try assumption.
    intros [[? [=]]|[? [=]]].
Qed.

Lemma main_leaves_facets_in_step_witness :
  is_Some (elements (page_with (Some "dark") (Some system_dark)) !! "dark-mode-toggle")
  ∧ ∃ b : bool,
      aria_pressed "dark-mode-toggle" (final (main (page_with (Some "dark") (Some system_dark))))
      = Some (String_of_bool b)
      ∧ label "dark-mode-toggle" (final (main (page_with (Some "dark") (Some system_dark))))
        = Some (if b then sun else moon)
      ∧ darkMode_key (final (main (page_with (Some "dark") (Some system_dark))))
        = Some (if b then "1" else "0")
      ∧ (is_Some (localStorage (page_with (Some "dark") (Some system_dark)) !! "darkMode")
         ∨ is_Some (matchMedia (page_with (Some "dark") (Some system_dark))) →
         dark_mode_class (final (main (page_with (Some "dark") (Some system_dark)))) = b).
Proof.
  split; [button_is bare_button|].
  apply (main_leaves_facets_in_step (page_with (Some "dark") (Some system_dark))).
  button_is bare_button.
Defined.
